(** * Quaternions of cgmath-rs (src/cgmath/quaternion.rs)

    Shallow embedding of the quaternion core over the real numbers: the
    generic scalar [S: Float] of the source is instantiated with [R], so
    that the algebraic identities are stated exactly. *)

From Stdlib Require Import Reals.Reals Reals.RIneq Reals.Ratan Psatz RNsatz.

Open Scope R_scope.

(** ** Collaborator: 3-vectors *)
Module Vec3.

(** Modelled from the spec: the [Vector3<S>] collaborator (vector.rs is not
    part of the sources), a fixed 3-component container with componentwise
    add, scalar multiply/divide, dot product, cross product, squared length,
    unary negation and a zero-vector constructor (spec, section 6). *)
Record Vector3 := mk { x : R; y : R; z : R }.

Definition new (x y z : R) : Vector3 := mk x y z.

Definition zero : Vector3 := new 0 0 0.

Definition add_v (a b : Vector3) : Vector3 :=
  new (x a + x b) (y a + y b) (z a + z b).

Definition mul_s (a : Vector3) (k : R) : Vector3 :=
  new (x a * k) (y a * k) (z a * k).

Definition div_s (a : Vector3) (k : R) : Vector3 :=
  new (x a / k) (y a / k) (z a / k).

Definition neg (a : Vector3) : Vector3 := new (- x a) (- y a) (- z a).

Definition dot (a b : Vector3) : R := x a * x b + y a * y b + z a * z b.

Definition cross (a b : Vector3) : Vector3 :=
  new (y a * z b - z a * y b)
      (z a * x b - x a * z b)
      (x a * y b - y a * x b).

Definition length2 (a : Vector3) : R := dot a a.

End Vec3.

(** ** Collaborator: 3x3 matrices *)
Module Mat3.

(** Modelled from the spec: the [Matrix3<S>] collaborator (matrix.rs is not
    part of the sources), a fixed-size container built by a constructor
    taking nine scalars; the three groups of three arguments are kept, in
    the order the constructor receives them, as the three vectors [x], [y]
    and [z] of the matrix. *)
Record Matrix3 := mk { x : Vec3.Vector3; y : Vec3.Vector3; z : Vec3.Vector3 }.

Definition new (c0r0 c0r1 c0r2 c1r0 c1r1 c1r2 c2r0 c2r1 c2r2 : R) : Matrix3 :=
  mk (Vec3.new c0r0 c0r1 c0r2) (Vec3.new c1r0 c1r1 c1r2)
     (Vec3.new c2r0 c2r1 c2r2).

End Mat3.

(** ** Collaborator: 4x4 matrices *)
Module Mat4.

(** Modelled from the spec: the [Matrix4<S>] collaborator (matrix.rs is not
    part of the sources), a fixed-size container built by a constructor
    taking sixteen scalars; the four groups of four arguments are kept, in
    the order the constructor receives them, as the four 4-vectors [x], [y],
    [z] and [w] of the matrix. *)
Record Vector4 := mk4 { vx : R; vy : R; vz : R; vw : R }.

Record Matrix4 := mk { x : Vector4; y : Vector4; z : Vector4; w : Vector4 }.

Definition new (c0r0 c0r1 c0r2 c0r3 c1r0 c1r1 c1r2 c1r3
                c2r0 c2r1 c2r2 c2r3 c3r0 c3r1 c3r2 c3r3 : R) : Matrix4 :=
  mk (mk4 c0r0 c0r1 c0r2 c0r3) (mk4 c1r0 c1r1 c1r2 c1r3)
     (mk4 c2r0 c2r1 c2r2 c2r3) (mk4 c3r0 c3r1 c3r2 c3r3).

End Mat4.

(** ** Collaborator: angles *)
Module Angle.

(** Modelled from the spec: the angle wrapper (angle.rs is not part of the
    sources), a scalar tagged as radians, with scalar multiply and the free
    functions [sin] and [acos]. *)
Record Rad := mk { rad : R }.

Definition mul_s (a : Rad) (k : R) : Rad := mk (rad a * k).

Definition sin (a : Rad) : R := Rtrigo_def.sin (rad a).

Definition acos (v : R) : Rad := mk (Ratan.acos v).

Definition cos (a : Rad) : R := Rtrigo_def.cos (rad a).

(** [sin_cos] returns the pair [(sin, cos)]. *)
Definition sin_cos (a : Rad) : R * R := (sin a, cos a).

End Angle.

(** ** The quaternion type and its operations *)
Module Quat.

Import Vec3 (Vector3).

(** [pub struct Quaternion<S> { pub s: S, pub v: Vector3<S> }] *)
Record Quaternion := mk { s : R; v : Vector3 }.

(** [Quaternion::from_sv] *)
Definition from_sv (s : R) (v : Vector3) : Quaternion := mk s v.

(** [Quaternion::new] *)
Definition new (w xi yj zk : R) : Quaternion := from_sv w (Vec3.new xi yj zk).

(** [Quaternion::zero] *)
Definition zero : Quaternion := new 0 0 0 0.

(** [Quaternion::identity] *)
Definition identity : Quaternion := from_sv 1 Vec3.zero.

(** Modelled from the spec: the array view of a quaternion given by the
    [array!(impl<S> Quaternion<S> -> [S, ..4] _4)] macro (array.rs is not part
    of the sources): component [0] is the scalar part, components [1], [2],
    [3] the vector part; [build] fills the four components from an index
    function and [each_mut] rewrites every component in place. *)
Definition i (q : Quaternion) (n : nat) : R :=
  match n with
  | 0%nat => s q
  | 1%nat => Vec3.x (v q)
  | 2%nat => Vec3.y (v q)
  | _ => Vec3.z (v q)
  end.

Definition build (f : nat -> R) : Quaternion := new (f 0%nat) (f 1%nat) (f 2%nat) (f 3%nat).

Definition each_mut (q : Quaternion) (f : nat -> R -> R) : Quaternion :=
  build (fun n => f n (i q n)).

(** [mul_s]: [Quaternion::from_sv(self.s * value, self.v.mul_s(value))] *)
Definition mul_s (self : Quaternion) (value : R) : Quaternion :=
  from_sv (s self * value) (Vec3.mul_s (v self) value).

(** [div_s]: [Quaternion::from_sv(self.s / value, self.v.div_s(value))] *)
Definition div_s (self : Quaternion) (value : R) : Quaternion :=
  from_sv (s self / value) (Vec3.div_s (v self) value).

(** [mul_v]: the two-step form of the source. *)
Definition mul_v (self : Quaternion) (vec : Vector3) : Vector3 :=
  let tmp := Vec3.add_v (Vec3.cross (v self) vec) (Vec3.mul_s vec (s self)) in
  Vec3.add_v (Vec3.mul_s (Vec3.cross (v self) tmp) 2) vec.

(** [add_q]: [build(|i| self.i(i).add(other.i(i)))] *)
Definition add_q (self other : Quaternion) : Quaternion :=
  build (fun n => i self n + i other n).

(** [sub_q]: [build(|i| self.i(i).add(other.i(i)))], as written in the source. *)
Definition sub_q (self other : Quaternion) : Quaternion :=
  build (fun n => i self n + i other n).

(** [mul_q] *)
Definition mul_q (self other : Quaternion) : Quaternion :=
  new (s self * s other - Vec3.x (v self) * Vec3.x (v other)
       - Vec3.y (v self) * Vec3.y (v other) - Vec3.z (v self) * Vec3.z (v other))
      (s self * Vec3.x (v other) + Vec3.x (v self) * s other
       + Vec3.y (v self) * Vec3.z (v other) - Vec3.z (v self) * Vec3.y (v other))
      (s self * Vec3.y (v other) + Vec3.y (v self) * s other
       + Vec3.z (v self) * Vec3.x (v other) - Vec3.x (v self) * Vec3.z (v other))
      (s self * Vec3.z (v other) + Vec3.z (v self) * s other
       + Vec3.x (v self) * Vec3.y (v other) - Vec3.y (v self) * Vec3.x (v other)).

(** In-place variants, as explicit state passing: each takes the receiver
    and returns the receiver after the call. *)

(** [mul_self_s]: [self.each_mut(|_, x| *x = x.mul(&s))] *)
Definition mul_self_s (self : Quaternion) (k : R) : Quaternion :=
  each_mut self (fun _ c => c * k).

(** [div_self_s]: [self.each_mut(|_, x| *x = x.div(&s))] *)
Definition div_self_s (self : Quaternion) (k : R) : Quaternion :=
  each_mut self (fun _ c => c / k).

(** [add_self_q]: [self.each_mut(|i, x| *x = x.add(other.i(i)))] *)
Definition add_self_q (self other : Quaternion) : Quaternion :=
  each_mut self (fun n c => c + i other n).

(** [sub_self_q]: [self.each_mut(|i, x| *x = x.sub(other.i(i)))] *)
Definition sub_self_q (self other : Quaternion) : Quaternion :=
  each_mut self (fun n c => c - i other n).

(** [mul_self_q]: [*self = self.mul_q(other)] *)
Definition mul_self_q (self other : Quaternion) : Quaternion :=
  mul_q self other.

(** [dot]: [self.s * other.s + self.v.dot(&other.v)] *)
Definition dot (self other : Quaternion) : R :=
  s self * s other + Vec3.dot (v self) (v other).

(** [conjugate]: [Quaternion::from_sv(self.s.clone(), -self.v.clone())] *)
Definition conjugate (self : Quaternion) : Quaternion :=
  from_sv (s self) (Vec3.neg (v self)).

(** [magnitude2]: [self.s * self.s + self.v.length2()] *)
Definition magnitude2 (self : Quaternion) : R :=
  s self * s self + Vec3.length2 (v self).

(** [magnitude]: [self.magnitude2().sqrt()] *)
Definition magnitude (self : Quaternion) : R := sqrt (magnitude2 self).

(** [normalize]: [self.mul_s(one::<S>() / self.magnitude())] *)
Definition normalize (self : Quaternion) : Quaternion :=
  mul_s self (1 / magnitude self).

(** [nlerp] *)
Definition nlerp (self other : Quaternion) (amount : R) : Quaternion :=
  normalize (add_q (mul_s self (1 - amount)) (mul_s other amount)).

(** [slerp]: the spherical linear interpolation of the source. The
    comparisons [dot > dot_threshold], [dot > one] and [dot < -one] are the
    decisions of the real order; [cast(0.9995)] is the real [9995/10000]. *)
Definition slerp (self other : Quaternion) (amount : R) : Quaternion :=
  let dot := dot self other in
  let dot_threshold := 9995 / 10000 in
  if Rgt_dec dot dot_threshold then nlerp self other amount
  else
    let robust_dot :=
      if Rgt_dec dot 1 then 1
      else if Rlt_dec dot (- 1) then - 1
      else dot in
    let theta := Angle.acos robust_dot in
    let scale1 := Angle.sin (Angle.mul_s theta (1 - amount)) in
    let scale2 := Angle.sin (Angle.mul_s theta amount) in
    mul_s (add_q (mul_s self scale1) (mul_s other scale2))
          (/ Angle.sin theta).

(** [to_matrix3] (the [ToMatrix3] impl). *)
Definition to_matrix3 (self : Quaternion) : Mat3.Matrix3 :=
  let x2 := Vec3.x (v self) + Vec3.x (v self) in
  let y2 := Vec3.y (v self) + Vec3.y (v self) in
  let z2 := Vec3.z (v self) + Vec3.z (v self) in
  let xx2 := x2 * Vec3.x (v self) in
  let xy2 := x2 * Vec3.y (v self) in
  let xz2 := x2 * Vec3.z (v self) in
  let yy2 := y2 * Vec3.y (v self) in
  let yz2 := y2 * Vec3.z (v self) in
  let zz2 := z2 * Vec3.z (v self) in
  let sy2 := y2 * s self in
  let sz2 := z2 * s self in
  let sx2 := x2 * s self in
  Mat3.new (1 - yy2 - zz2) (xy2 + sz2) (xz2 - sy2)
           (xy2 - sz2) (1 - xx2 - zz2) (yz2 + sx2)
           (xz2 + sy2) (yz2 - sx2) (1 - xx2 - yy2).

(** [between_vectors] (the [Rotation] impl). *)
Definition between_vectors (a b : Vector3) : Quaternion :=
  normalize (from_sv (1 + Vec3.dot a b) (Vec3.cross a b)).

(** The slerp steps as the specification words them (section 4.2): clamp
    the dot product into [[-1, 1]], take its arccosine, and divide the
    weighted sum by [sin theta]. Compared with [slerp] below. *)
Definition slerp_spec (self other : Quaternion) (amount : R) : Quaternion :=
  let d := dot self other in
  if Rlt_dec (9995 / 10000) d then nlerp self other amount
  else
    let theta := Ratan.acos (Rmax (- 1) (Rmin d 1)) in
    div_s (add_q (mul_s self (Rtrigo_def.sin (theta * (1 - amount))))
                 (mul_s other (Rtrigo_def.sin (theta * amount))))
          (Rtrigo_def.sin theta).

(** [to_matrix4] (the [ToMatrix4] impl). *)
Definition to_matrix4 (self : Quaternion) : Mat4.Matrix4 :=
  let x2 := Vec3.x (v self) + Vec3.x (v self) in
  let y2 := Vec3.y (v self) + Vec3.y (v self) in
  let z2 := Vec3.z (v self) + Vec3.z (v self) in
  let xx2 := x2 * Vec3.x (v self) in
  let xy2 := x2 * Vec3.y (v self) in
  let xz2 := x2 * Vec3.z (v self) in
  let yy2 := y2 * Vec3.y (v self) in
  let yz2 := y2 * Vec3.z (v self) in
  let zz2 := z2 * Vec3.z (v self) in
  let sy2 := y2 * s self in
  let sz2 := z2 * s self in
  let sx2 := x2 * s self in
  Mat4.new (1 - yy2 - zz2) (xy2 + sz2) (xz2 - sy2) 0
           (xy2 - sz2) (1 - xx2 - zz2) (yz2 + sx2) 0
           (xz2 + sy2) (yz2 - sx2) (1 - xx2 - yy2) 0
           0 0 0 1.

(** [neg] (the [Neg] impl): [Quaternion::from_sv(-self.s, -self.v)] *)
Definition neg (self : Quaternion) : Quaternion :=
  from_sv (- s self) (Vec3.neg (v self)).

(** The [Rotation] impl. *)

(** [rotate_vector]: [self.mul_v(vec)] *)
Definition rotate_vector (self : Quaternion) (vec : Vector3) : Vector3 :=
  mul_v self vec.

(** [concat]: [self.mul_q(other)] *)
Definition concat (self other : Quaternion) : Quaternion := mul_q self other.

(** [concat_self]: [self.mul_self_q(other)] *)
Definition concat_self (self other : Quaternion) : Quaternion :=
  mul_self_q self other.

(** [invert]: [self.conjugate().div_s(self.magnitude2())] *)
Definition invert (self : Quaternion) : Quaternion :=
  div_s (conjugate self) (magnitude2 self).

(** [invert_self]: [*self = self.invert()] *)
Definition invert_self (self : Quaternion) : Quaternion := invert self.

(** The [Rotation3] impl. [cast(0.5)] is the real [1/2]. *)

(** [from_axis_angle] *)
Definition from_axis_angle (axis : Vector3) (angle : Angle.Rad) : Quaternion :=
  let (s, c) := Angle.sin_cos (Angle.mul_s angle (1 / 2)) in
  from_sv c (Vec3.mul_s axis s).

(** [from_euler] *)
Definition from_euler (x y z : Angle.Rad) : Quaternion :=
  let (sx2, cx2) := Angle.sin_cos (Angle.mul_s x (1 / 2)) in
  let (sy2, cy2) := Angle.sin_cos (Angle.mul_s y (1 / 2)) in
  let (sz2, cz2) := Angle.sin_cos (Angle.mul_s z (1 / 2)) in
  new (cz2 * cx2 * cy2 + sz2 * sx2 * sy2)
      (sz2 * cx2 * cy2 - cz2 * sx2 * sy2)
      (cz2 * sx2 * cy2 + sz2 * cx2 * sy2)
      (cz2 * cx2 * sy2 - sz2 * sx2 * cy2).

End Quat.

(** ** Properties *)
Module QuatFacts.

Import Quat.

(** Unfold the quaternion and vector operations down to their four (or
    three) real components. *)
Ltac unfold_ops :=
  cbv [from_sv new zero identity i build each_mut mul_s div_s mul_v add_q sub_q
       mul_q mul_self_s div_self_s add_self_q sub_self_q mul_self_q dot
       conjugate magnitude2 to_matrix3 Mat3.new to_matrix4 Mat4.new neg
       rotate_vector concat concat_self invert invert_self Vec3.new Vec3.zero Vec3.add_v Vec3.mul_s
       Vec3.div_s Vec3.neg Vec3.dot Vec3.cross Vec3.length2] in *.

(** Split every quaternion and vector variable into its components. *)
Ltac split_vars :=
  repeat match goal with
         | q : Quaternion |- _ => destruct q
         | w : Vec3.Vector3 |- _ => destruct w
         end.

(** Reduce an equation between quaternions (or vectors) to the equations
    between their components. *)
Ltac ctor_eq :=
  repeat match goal with
         | |- Quat.mk _ _ = Quat.mk _ _ => f_equal
         | |- Vec3.mk _ _ _ = Vec3.mk _ _ _ => f_equal
         | |- Mat3.mk _ _ _ = Mat3.mk _ _ _ => f_equal
         | |- Mat4.mk _ _ _ _ = Mat4.mk _ _ _ _ => f_equal
         | |- Mat4.mk4 _ _ _ _ = Mat4.mk4 _ _ _ _ => f_equal
         end.

Ltac comp_eq := split_vars; unfold_ops; simpl; ctor_eq.

(** Componentwise, [sub_q] computes the sum of its arguments. *)
Lemma sub_q_is_add_q (a b : Quaternion) : sub_q a b = add_q a b.
Proof. reflexivity. Qed.

(** The squared magnitude is a sum of squares. *)
Lemma magnitude2_nonneg (q : Quaternion) : 0 <= magnitude2 q.
Proof. split_vars; unfold_ops; simpl; nra. Qed.

(** Scaling by [k] scales the squared magnitude by [k * k]. *)
Lemma magnitude2_mul_s (q : Quaternion) (k : R) :
  magnitude2 (mul_s q k) = k * k * magnitude2 q.
Proof. split_vars; unfold_ops; simpl; ring. Qed.

(** C1 (code_bug): sub_q is meant to return the componentwise difference,
    but at [a = b = 1 + 2i + 3j + 4k] its scalar part is [2], not
    [a.s - b.s = 0]: the source adds the components. *)
Lemma sub_q_failing_input :
  sub_q (new 1 2 3 4) (new 1 2 3 4) = new 2 4 6 8 /\
  s (sub_q (new 1 2 3 4) (new 1 2 3 4)) <> s (new 1 2 3 4) - s (new 1 2 3 4).
Proof.
  split.
  - unfold_ops; simpl; ctor_eq; ring.
  - unfold_ops; simpl; lra.
Qed.

(** C2 (code_bug): the in-place variants [mul_self_s], [div_self_s],
    [add_self_q] and [mul_self_q] leave the receiver equal to the result of
    their pure counterparts, for all inputs; [sub_self_q] computes the
    componentwise difference, which differs from [sub_q] (a sum) at
    [q = r = 1 + 2i + 3j + 4k]. *)
Lemma in_place_variants_agree :
  (forall q k, mul_self_s q k = mul_s q k) /\
  (forall q k, div_self_s q k = div_s q k) /\
  (forall q r, add_self_q q r = add_q q r) /\
  (forall q r, mul_self_q q r = mul_q q r) /\
  sub_self_q (new 1 2 3 4) (new 1 2 3 4) = zero /\
  sub_self_q (new 1 2 3 4) (new 1 2 3 4) <> sub_q (new 1 2 3 4) (new 1 2 3 4).
Proof.
  split; [|split; [|split; [|split; [|split]]]].
  - intros; comp_eq; ring.
  - intros; comp_eq.
  - intros; comp_eq.
  - reflexivity.
  - unfold_ops; simpl; ctor_eq; ring.
  - unfold_ops; simpl; intro H; injection H; intros; lra.
Qed.

(** C3: [mul_q] is the Hamilton product: scalar part
    [a_s * b_s - a_v . b_v], vector part [a_s * b_v + b_s * a_v + a_v x b_v]. *)
Theorem mul_q_hamilton (a b : Quaternion) :
  mul_q a b =
  from_sv (s a * s b - Vec3.dot (v a) (v b))
          (Vec3.add_v (Vec3.add_v (Vec3.mul_s (v b) (s a)) (Vec3.mul_s (v a) (s b)))
                      (Vec3.cross (v a) (v b))).
Proof. comp_eq; ring. Qed.

(** Multiplying by the reciprocal of [k] is dividing by [k]. *)
Lemma mul_s_inv_div_s (q : Quaternion) (k : R) : mul_s q (/ k) = div_s q k.
Proof. comp_eq; unfold Rdiv; reflexivity. Qed.

(** The nested clamp of [slerp] is [Rmax (-1) (Rmin d 1)]. *)
Lemma robust_dot_clamp (d : R) :
  (if Rgt_dec d 1 then 1 else if Rlt_dec d (- 1) then - 1 else d) =
  Rmax (- 1) (Rmin d 1).
Proof.
  unfold Rmax, Rmin.
  destruct (Rgt_dec d 1); destruct (Rlt_dec d (- 1));
    repeat destruct (Rle_dec _ _); lra.
Qed.

(** C4: [slerp] takes the steps of the specification: [nlerp] when the dot
    product is strictly above [0.9995]; otherwise clamp the dot product into
    [[-1, 1]], take [theta] as its arccosine, and return
    [(sin(theta*(1-amount))*self + sin(theta*amount)*other) / sin(theta)]. *)
Theorem slerp_steps (q r : Quaternion) (amount : R) :
  slerp q r amount = slerp_spec q r amount.
Proof.
  unfold slerp, slerp_spec; cbv zeta.
  destruct (Rgt_dec (dot q r) (9995 / 10000)) as [H1 | H1];
    destruct (Rlt_dec (9995 / 10000) (dot q r)) as [H2 | H2];
    try (exfalso; lra); [reflexivity |].
  rewrite robust_dot_clamp.
  unfold Angle.sin, Angle.mul_s, Angle.acos; simpl.
  apply mul_s_inv_div_s.
Qed.

(** C5: for every quaternion [(s, q_v)] and vector [w], [mul_v] returns
    [w + 2*s*(q_v x w) + 2*(q_v x (q_v x w))]; the source's two-step form
    agrees with this identity for all inputs, unit or not. *)
Theorem mul_v_rotation_identity (q : Quaternion) (w : Vec3.Vector3) :
  mul_v q w =
  Vec3.add_v (Vec3.add_v w (Vec3.mul_s (Vec3.cross (v q) w) (2 * s q)))
             (Vec3.mul_s (Vec3.cross (v q) (Vec3.cross (v q) w)) 2).
Proof. comp_eq; ring. Qed.

(** C6: [to_matrix3] passes to the [Matrix3] constructor, in this order,
    the entries built from the doubled products [xx2 = 2x^2], ...,
    [sz2 = 2sz]. *)
Theorem to_matrix3_entries (q : Quaternion) :
  let x := Vec3.x (v q) in
  let y := Vec3.y (v q) in
  let z := Vec3.z (v q) in
  let w := s q in
  let xx2 := 2 * (x * x) in
  let yy2 := 2 * (y * y) in
  let zz2 := 2 * (z * z) in
  let xy2 := 2 * (x * y) in
  let xz2 := 2 * (x * z) in
  let yz2 := 2 * (y * z) in
  let sx2 := 2 * (w * x) in
  let sy2 := 2 * (w * y) in
  let sz2 := 2 * (w * z) in
  to_matrix3 q =
  Mat3.new (1 - yy2 - zz2) (xy2 + sz2) (xz2 - sy2)
           (xy2 - sz2) (1 - xx2 - zz2) (yz2 + sx2)
           (xz2 + sy2) (yz2 - sx2) (1 - xx2 - yy2).
Proof. cbv zeta; comp_eq; ring. Qed.

(** C7: the Hamilton product of [q] with its conjugate is
    [from_sv (magnitude2 q) zero]. *)
Theorem mul_q_conjugate (q : Quaternion) :
  mul_q q (conjugate q) = from_sv (magnitude2 q) Vec3.zero.
Proof. comp_eq; ring. Qed.

(** C8: for every quaternion of nonzero magnitude, [normalize q] has
    magnitude exactly [1]. *)
Theorem normalize_magnitude (q : Quaternion) (Hq : magnitude q <> 0) :
  magnitude (normalize q) = 1.
Proof.
  unfold normalize, magnitude in *.
  rewrite magnitude2_mul_s.
  pose proof (magnitude2_nonneg q) as H0.
  replace (1 / sqrt (magnitude2 q) * (1 / sqrt (magnitude2 q)) * magnitude2 q)
    with 1.
  - apply sqrt_1.
  - rewrite <- (sqrt_sqrt (magnitude2 q) H0) at 3.
    field; exact Hq.
Qed.

(** C8, at the identity quaternion. *)
Lemma normalize_magnitude_witness :
  magnitude identity <> 0 /\ magnitude (normalize identity) = 1.
Proof.
  assert (H : magnitude identity <> 0).
  { unfold magnitude; unfold_ops; simpl.
    replace (1 * 1 + (0 * 0 + 0 * 0 + 0 * 0)) with 1 by ring.
    rewrite sqrt_1; lra. }
  split; [exact H | apply (normalize_magnitude identity H)].
Defined.

(** C9: for a unit vector [a] and [b = -a], the quaternion that
    [between_vectors] normalizes, [from_sv (1 + a.b) (a x b)], has scalar
    part [0], zero vector part and squared magnitude [0]; [normalize]
    then scales it by [1 / 0]. *)
Theorem between_vectors_antiparallel (a b : Vec3.Vector3)
  (Ha : Vec3.length2 a = 1) (Hb : b = Vec3.neg a) :
  let q := from_sv (1 + Vec3.dot a b) (Vec3.cross a b) in
  s q = 0 /\ v q = Vec3.zero /\ magnitude2 q = 0 /\ magnitude q = 0 /\
  between_vectors a b = mul_s q (1 / 0).
Proof.
  intros q; subst b.
  assert (Hs : s q = 0).
  { subst q; destruct a; unfold_ops; simpl in *; nra. }
  assert (Hv : v q = Vec3.zero).
  { subst q; destruct a; unfold_ops; simpl; ctor_eq; ring. }
  assert (Hm2 : magnitude2 q = 0).
  { unfold magnitude2; rewrite Hs, Hv; unfold_ops; simpl; ring. }
  assert (Hm : magnitude q = 0).
  { unfold magnitude; rewrite Hm2; apply sqrt_0. }
  repeat split; try assumption.
  change (normalize q = mul_s q (1 / 0)).
  unfold normalize; rewrite Hm; reflexivity.
Qed.

(** C9, at [a = (1, 0, 0)] and [b = (-1, 0, 0)]. *)
Lemma between_vectors_antiparallel_witness :
  let a := Vec3.new 1 0 0 in
  let b := Vec3.neg (Vec3.new 1 0 0) in
  Vec3.length2 a = 1 /\ b = Vec3.neg a /\
  (let q := from_sv (1 + Vec3.dot a b) (Vec3.cross a b) in
   s q = 0 /\ v q = Vec3.zero /\ magnitude2 q = 0 /\ magnitude q = 0 /\
   between_vectors a b = mul_s q (1 / 0)).
Proof.
  intros a b.
  assert (Ha : Vec3.length2 a = 1).
  { subst a; unfold_ops; simpl; ring. }
  split; [exact Ha | split; [reflexivity |]].
  apply (between_vectors_antiparallel a b Ha eq_refl).
Defined.

(** C10: the self dot product is the squared magnitude. *)
Theorem dot_self_magnitude2 (q : Quaternion) : dot q q = magnitude2 q.
Proof. reflexivity. Qed.

(** ** Further properties of the quaternion code *)

(** [identity] is a two-sided unit of [concat], for every quaternion. *)
Theorem concat_identity (q : Quaternion) :
  concat q identity = q /\ concat identity q = q.
Proof. split; comp_eq; ring. Qed.

(** [concat] (the Hamilton product) is associative. *)
Theorem concat_assoc (p q r : Quaternion) :
  concat p (concat q r) = concat (concat p q) r.
Proof. comp_eq; ring. Qed.

(** The squared magnitude is multiplicative under [mul_q]; in particular
    the product of two unit quaternions is a unit quaternion. *)
Theorem magnitude2_mul_q (p q : Quaternion) :
  magnitude2 (mul_q p q) = magnitude2 p * magnitude2 q.
Proof. comp_eq; ring. Qed.

(** [invert] is a two-sided inverse for [concat], for every quaternion of
    nonzero squared magnitude (unit or not). *)
Theorem invert_concat (q : Quaternion) (Hq : magnitude2 q <> 0) :
  concat q (invert q) = identity /\ concat (invert q) q = identity.
Proof.
  split; comp_eq; field; exact Hq.
Qed.

Lemma invert_concat_witness :
  magnitude2 (new 1 2 3 4) <> 0 /\
  concat (new 1 2 3 4) (invert (new 1 2 3 4)) = identity /\
  concat (invert (new 1 2 3 4)) (new 1 2 3 4) = identity.
Proof.
  assert (H : magnitude2 (new 1 2 3 4) <> 0) by (unfold_ops; simpl; lra).
  split; [exact H | apply (invert_concat (new 1 2 3 4) H)].
Defined.

(** For a unit quaternion, [invert] is the [conjugate]. *)
Theorem invert_unit_conjugate (q : Quaternion) (Hq : magnitude2 q = 1) :
  invert q = conjugate q.
Proof.
  unfold invert; rewrite Hq.
  comp_eq; field.
Qed.

Lemma invert_unit_conjugate_witness :
  magnitude2 (new 0 1 0 0) = 1 /\ invert (new 0 1 0 0) = conjugate (new 0 1 0 0).
Proof.
  assert (H : magnitude2 (new 0 1 0 0) = 1) by (unfold_ops; simpl; ring).
  split; [exact H | apply (invert_unit_conjugate (new 0 1 0 0) H)].
Defined.

(** The conjugate of a product is the product of the conjugates in reverse
    order. *)
Theorem conjugate_mul_q (p q : Quaternion) :
  conjugate (mul_q p q) = mul_q (conjugate q) (conjugate p).
Proof. comp_eq; ring. Qed.

(** A quaternion and its negation describe the same rotation: they rotate
    every vector alike and give the same rotation matrix. *)
Theorem neg_same_rotation (q : Quaternion) (w : Vec3.Vector3) :
  rotate_vector (neg q) w = rotate_vector q w /\ to_matrix3 (neg q) = to_matrix3 q.
Proof. split; comp_eq; ring. Qed.

(** [to_matrix4] embeds the entries of [to_matrix3] in its first three
    columns, with zero fourth components, and ends with [(0, 0, 0, 1)]. *)
Theorem to_matrix4_embeds_to_matrix3 (q : Quaternion) :
  let m := to_matrix3 q in
  to_matrix4 q =
  Mat4.new (Vec3.x (Mat3.x m)) (Vec3.y (Mat3.x m)) (Vec3.z (Mat3.x m)) 0
           (Vec3.x (Mat3.y m)) (Vec3.y (Mat3.y m)) (Vec3.z (Mat3.y m)) 0
           (Vec3.x (Mat3.z m)) (Vec3.y (Mat3.z m)) (Vec3.z (Mat3.z m)) 0
           0 0 0 1.
Proof. cbv zeta; comp_eq. Qed.

(** Dividing by a nonzero scalar undoes multiplying by it. *)
Theorem div_s_mul_s (q : Quaternion) (k : R) (Hk : k <> 0) :
  div_s (mul_s q k) k = q.
Proof. comp_eq; field; exact Hk. Qed.

Lemma div_s_mul_s_witness :
  (2 : R) <> 0 /\ div_s (mul_s (new 1 2 3 4) 2) 2 = new 1 2 3 4.
Proof.
  assert (H : (2 : R) <> 0) by lra.
  split; [exact H | apply (div_s_mul_s (new 1 2 3 4) 2 H)].
Defined.

(** A unit quaternion's [rotate_vector] preserves squared length. *)
Theorem rotate_vector_length2 (q : Quaternion) (w : Vec3.Vector3)
  (Hq : magnitude2 q = 1) :
  Vec3.length2 (rotate_vector q w) = Vec3.length2 w.
Proof. split_vars; unfold_ops; simpl in *; nsatz. Qed.

Lemma rotate_vector_length2_witness :
  magnitude2 (new 0 1 0 0) = 1 /\
  Vec3.length2 (rotate_vector (new 0 1 0 0) (Vec3.new 1 2 3)) =
  Vec3.length2 (Vec3.new 1 2 3).
Proof.
  assert (H : magnitude2 (new 0 1 0 0) = 1) by (unfold_ops; simpl; ring).
  split; [exact H | apply (rotate_vector_length2 (new 0 1 0 0) _ H)].
Defined.

(** For a unit quaternion [q], the optimised [rotate_vector] agrees with the
    full product [q * (0, w) * conjugate q]. *)
Theorem rotate_vector_sandwich (q : Quaternion) (w : Vec3.Vector3)
  (Hq : magnitude2 q = 1) :
  from_sv 0 (rotate_vector q w) = mul_q (mul_q q (from_sv 0 w)) (conjugate q).
Proof. split_vars; unfold_ops; simpl in *; ctor_eq; [ring | nsatz ..]. Qed.

Lemma rotate_vector_sandwich_witness :
  magnitude2 (new 0 1 0 0) = 1 /\
  from_sv 0 (rotate_vector (new 0 1 0 0) (Vec3.new 1 2 3)) =
  mul_q (mul_q (new 0 1 0 0) (from_sv 0 (Vec3.new 1 2 3))) (conjugate (new 0 1 0 0)).
Proof.
  assert (H : magnitude2 (new 0 1 0 0) = 1) by (unfold_ops; simpl; ring).
  split; [exact H | apply (rotate_vector_sandwich (new 0 1 0 0) _ H)].
Defined.

(** Rotating by [concat p q] is rotating by [q] and then by [p], for unit
    quaternions [p] and [q]. *)
Theorem rotate_vector_concat (p q : Quaternion) (w : Vec3.Vector3)
  (Hp : magnitude2 p = 1) (Hq : magnitude2 q = 1) :
  rotate_vector (concat p q) w = rotate_vector p (rotate_vector q w).
Proof. split_vars; unfold_ops; simpl in *; ctor_eq; nsatz. Qed.

Lemma rotate_vector_concat_witness :
  magnitude2 (new 0 1 0 0) = 1 /\ magnitude2 (new 0 0 1 0) = 1 /\
  rotate_vector (concat (new 0 1 0 0) (new 0 0 1 0)) (Vec3.new 1 2 3) =
  rotate_vector (new 0 1 0 0) (rotate_vector (new 0 0 1 0) (Vec3.new 1 2 3)).
Proof.
  assert (Hp : magnitude2 (new 0 1 0 0) = 1) by (unfold_ops; simpl; ring).
  assert (Hq : magnitude2 (new 0 0 1 0) = 1) by (unfold_ops; simpl; ring).
  split; [exact Hp | split; [exact Hq |]].
  apply (rotate_vector_concat _ _ _ Hp Hq).
Defined.

(** For a unit quaternion, the matrix of [to_matrix3], read as three columns
    [x], [y], [z], maps every vector [w] to [rotate_vector q w]. *)
Theorem to_matrix3_rotates (q : Quaternion) (w : Vec3.Vector3)
  (Hq : magnitude2 q = 1) :
  let m := to_matrix3 q in
  rotate_vector q w =
  Vec3.add_v (Vec3.add_v (Vec3.mul_s (Mat3.x m) (Vec3.x w))
                         (Vec3.mul_s (Mat3.y m) (Vec3.y w)))
             (Vec3.mul_s (Mat3.z m) (Vec3.z w)).
Proof. cbv zeta; split_vars; unfold_ops; simpl in *; ctor_eq; nsatz. Qed.

Lemma to_matrix3_rotates_witness :
  magnitude2 (new 0 1 0 0) = 1 /\
  rotate_vector (new 0 1 0 0) (Vec3.new 1 2 3) =
  Vec3.add_v (Vec3.add_v (Vec3.mul_s (Mat3.x (to_matrix3 (new 0 1 0 0))) 1)
                         (Vec3.mul_s (Mat3.y (to_matrix3 (new 0 1 0 0))) 2))
             (Vec3.mul_s (Mat3.z (to_matrix3 (new 0 1 0 0))) 3).
Proof.
  assert (H : magnitude2 (new 0 1 0 0) = 1) by (unfold_ops; simpl; ring).
  split; [exact H | apply (to_matrix3_rotates (new 0 1 0 0) (Vec3.new 1 2 3) H)].
Defined.

Ltac unfold_angles :=
  cbv [from_axis_angle from_euler Angle.sin_cos Angle.mul_s Angle.sin Angle.cos
       Angle.acos Angle.rad] in *.

(** Rotating the axis of [from_axis_angle axis angle] leaves it unchanged,
    for every axis (unit or not) and every angle. *)
Theorem from_axis_angle_fixes_axis (axis : Vec3.Vector3) (angle : Angle.Rad) :
  rotate_vector (from_axis_angle axis angle) axis = axis.
Proof. unfold_angles; split_vars; unfold_ops; simpl; ctor_eq; ring. Qed.

(** [from_axis_angle] of a unit axis is a unit quaternion. *)
Theorem from_axis_angle_unit (axis : Vec3.Vector3) (angle : Angle.Rad)
  (Hax : Vec3.length2 axis = 1) :
  magnitude2 (from_axis_angle axis angle) = 1.
Proof.
  pose proof (sin2_cos2 (Angle.rad angle * (1 / 2))) as Htrig.
  unfold Rsqr in Htrig.
  unfold_angles; split_vars; unfold_ops; simpl in *; nsatz.
Qed.

Lemma from_axis_angle_unit_witness :
  Vec3.length2 (Vec3.new 0 0 1) = 1 /\
  magnitude2 (from_axis_angle (Vec3.new 0 0 1) (Angle.mk PI)) = 1.
Proof.
  assert (H : Vec3.length2 (Vec3.new 0 0 1) = 1) by (unfold_ops; simpl; ring).
  split; [exact H | apply (from_axis_angle_unit _ _ H)].
Defined.

(** [from_euler] yields a unit quaternion for every triple of angles. *)
Theorem from_euler_unit (x y z : Angle.Rad) :
  magnitude2 (from_euler x y z) = 1.
Proof.
  pose proof (sin2_cos2 (Angle.rad x * (1 / 2))) as Hx.
  pose proof (sin2_cos2 (Angle.rad y * (1 / 2))) as Hy.
  pose proof (sin2_cos2 (Angle.rad z * (1 / 2))) as Hz.
  unfold Rsqr in Hx, Hy, Hz.
  unfold_angles; unfold_ops; simpl in *; nsatz.
Qed.

(** At [amount = 0] and [amount = 1], [nlerp] returns the normalized
    [self] and the normalized [other]. *)
Theorem nlerp_endpoints (q r : Quaternion) :
  nlerp q r 0 = normalize q /\ nlerp q r 1 = normalize r.
Proof. unfold nlerp; split; f_equal; comp_eq; ring. Qed.

(** Normalizing a unit quaternion leaves it unchanged. *)
Lemma normalize_of_unit (q : Quaternion) : magnitude2 q = 1 -> normalize q = q.
Proof.
  intros H; unfold normalize, magnitude; rewrite H, sqrt_1.
  comp_eq; field.
Qed.

(** The spherical branch of [slerp], when the dot product is at most the
    threshold and above [-1]: the clamp leaves it unchanged. *)
Lemma slerp_spherical (q r : Quaternion) (amount : R) :
  ~ dot q r > 9995 / 10000 -> -1 < dot q r ->
  slerp q r amount =
  mul_s (add_q (mul_s q (Rtrigo_def.sin (Ratan.acos (dot q r) * (1 - amount))))
               (mul_s r (Rtrigo_def.sin (Ratan.acos (dot q r) * amount))))
        (/ Rtrigo_def.sin (Ratan.acos (dot q r))).
Proof.
  intros H1 H2; unfold slerp; cbv zeta.
  destruct (Rgt_dec (dot q r) (9995 / 10000)); [contradiction |].
  destruct (Rgt_dec (dot q r) 1); [lra |].
  destruct (Rlt_dec (dot q r) (- 1)); [lra |].
  reflexivity.
Qed.

(** For unit quaternions [q] and [r] that are not antipodal
    ([dot q r > -1]), [slerp q r 0 = q] and [slerp q r 1 = r]. *)
Theorem slerp_endpoints (q r : Quaternion)
  (Hq : magnitude2 q = 1) (Hr : magnitude2 r = 1) (Hd : -1 < dot q r) :
  slerp q r 0 = q /\ slerp q r 1 = r.
Proof.
  destruct (Rgt_dec (dot q r) (9995 / 10000)) as [Hc | Hc].
  - unfold slerp; cbv zeta.
    destruct (Rgt_dec (dot q r) (9995 / 10000)); [| contradiction].
    unfold nlerp.
    split.
    + replace (add_q (mul_s q (1 - 0)) (mul_s r 0)) with q by (comp_eq; ring).
      apply normalize_of_unit; exact Hq.
    + replace (add_q (mul_s q (1 - 1)) (mul_s r 1)) with r by (comp_eq; ring).
      apply normalize_of_unit; exact Hr.
  - rewrite !slerp_spherical by assumption.
    assert (Hsin : 0 < Rtrigo_def.sin (Ratan.acos (dot q r))).
    { destruct (acos_bound_lt (dot q r)) as [Ha1 Ha2]; [lra |].
      apply sin_gt_0; assumption. }
    replace (Ratan.acos (dot q r) * (1 - 0)) with (Ratan.acos (dot q r)) by ring.
    replace (Ratan.acos (dot q r) * (1 - 1)) with 0 by ring.
    replace (Ratan.acos (dot q r) * 0) with 0 by ring.
    replace (Ratan.acos (dot q r) * 1) with (Ratan.acos (dot q r)) by ring.
    rewrite sin_0.
    remember (Rtrigo_def.sin (Ratan.acos (dot q r))) as S eqn:HS.
    assert (HS0 : S <> 0) by lra.
    split; comp_eq; field; exact HS0.
Qed.

Lemma slerp_endpoints_witness :
  magnitude2 (new 1 0 0 0) = 1 /\ magnitude2 (new 0 1 0 0) = 1 /\
  -1 < dot (new 1 0 0 0) (new 0 1 0 0) /\
  slerp (new 1 0 0 0) (new 0 1 0 0) 0 = new 1 0 0 0 /\
  slerp (new 1 0 0 0) (new 0 1 0 0) 1 = new 0 1 0 0.
Proof.
  assert (Hq : magnitude2 (new 1 0 0 0) = 1) by (unfold_ops; simpl; ring).
  assert (Hr : magnitude2 (new 0 1 0 0) = 1) by (unfold_ops; simpl; ring).
  assert (Hd : -1 < dot (new 1 0 0 0) (new 0 1 0 0)) by (unfold_ops; simpl; lra).
  split; [exact Hq | split; [exact Hr | split; [exact Hd |]]].
  apply (slerp_endpoints _ _ Hq Hr Hd).
Defined.

(** [mul_v] of a scaled quaternion: the rotation part scales by [k * k]. *)
Lemma mul_v_mul_s (q : Quaternion) (k : R) (w : Vec3.Vector3) :
  mul_v (mul_s q k) w =
  Vec3.add_v (Vec3.mul_s (Vec3.add_v (mul_v q w) (Vec3.neg w)) (k * k)) w.
Proof. comp_eq; ring. Qed.

(** For unit vectors [a] and [b] that are not antiparallel
    ([a . b <> -1]), [between_vectors a b] rotates [a] onto [b]. *)
Theorem between_vectors_rotates (a b : Vec3.Vector3)
  (Ha : Vec3.length2 a = 1) (Hb : Vec3.length2 b = 1)
  (Hd : Vec3.dot a b <> -1) :
  rotate_vector (between_vectors a b) a = b.
Proof.
  unfold rotate_vector, between_vectors, normalize.
  set (q0 := from_sv (1 + Vec3.dot a b) (Vec3.cross a b)).
  assert (Hge : -1 <= Vec3.dot a b).
  { clear q0; destruct a as [ax ay az], b as [bx by0 bz]; unfold_ops; simpl in *.
    pose proof (Rle_0_sqr (ax + bx)); pose proof (Rle_0_sqr (ay + by0));
    pose proof (Rle_0_sqr (az + bz)); unfold Rsqr in *; nra. }
  assert (Hd1 : -1 < Vec3.dot a b).
  { destruct (Rle_lt_or_eq_dec _ _ Hge) as [Hlt | Heq]; [exact Hlt |].
    exfalso; apply Hd; symmetry; exact Heq. }
  assert (Hm2 : magnitude2 q0 = 2 * (1 + Vec3.dot a b)).
  { subst q0; destruct a, b; unfold_ops; simpl in *; nsatz. }
  assert (Hpos : 0 < magnitude2 q0) by lra.
  assert (Hk : 1 / magnitude q0 * (1 / magnitude q0) = / magnitude2 q0).
  { unfold magnitude.
    pose proof (sqrt_lt_R0 _ Hpos) as Hs.
    rewrite <- (sqrt_sqrt (magnitude2 q0)) at 3 by lra.
    field; lra. }
  assert (Hmv : mul_v q0 a =
                Vec3.add_v a (Vec3.mul_s (Vec3.add_v b (Vec3.neg a)) (magnitude2 q0))).
  { rewrite Hm2; subst q0; destruct a, b; unfold_ops; simpl in *; ctor_eq; nsatz. }
  rewrite mul_v_mul_s, Hk, Hmv.
  generalize (magnitude2 q0) Hpos; intros M HM.
  destruct a, b; unfold_ops; simpl; ctor_eq; field; lra.
Qed.

Lemma between_vectors_rotates_witness :
  Vec3.length2 (Vec3.new 1 0 0) = 1 /\ Vec3.length2 (Vec3.new 0 1 0) = 1 /\
  Vec3.dot (Vec3.new 1 0 0) (Vec3.new 0 1 0) <> -1 /\
  rotate_vector (between_vectors (Vec3.new 1 0 0) (Vec3.new 0 1 0)) (Vec3.new 1 0 0) =
  Vec3.new 0 1 0.
Proof.
  assert (Ha : Vec3.length2 (Vec3.new 1 0 0) = 1) by (unfold_ops; simpl; ring).
  assert (Hb : Vec3.length2 (Vec3.new 0 1 0) = 1) by (unfold_ops; simpl; ring).
  assert (Hd : Vec3.dot (Vec3.new 1 0 0) (Vec3.new 0 1 0) <> -1)
    by (unfold_ops; simpl; lra).
  split; [exact Ha | split; [exact Hb | split; [exact Hd |]]].
  apply (between_vectors_rotates _ _ Ha Hb Hd).
Defined.

End QuatFacts.
